(** * checkCitation: the citation format validator

    A shallow embedding of [backend/checkCitation/handler.py] and the
    properties of its four functions [lambda_handler], [validate_citation],
    [validate_apa] and [validate_mla].

    The handler is Python: its values are dynamically typed, its two format
    rules are regular expressions given as text, it can raise, and the
    request boundary catches what is raised.  The embedding keeps all four:
    a type of Python values, the patterns as the text the source has
    (parsed and run by a backtracking matcher), an exception monad, and the
    [try]/[except] of the boundary. *)

From Stdlib Require Import String Ascii DecimalString.
From Stdlib Require Import List NArith ZArith Bool Lia.
Import ListNotations.
Local Open Scope list_scope.

(** ** Text *)

(** A Python [str] is a sequence of Unicode code points. *)
Definition char := N.
Definition pystr := list char.

(** ASCII literals of the source, as text. *)
Definition str (s : string) : pystr :=
  map N_of_ascii (list_ascii_of_string s).

Fixpoint pystr_eqb (a b : pystr) : bool :=
  match a, b with
  | [], [] => true
  | x :: a', y :: b' => (x =? y)%N && pystr_eqb a' b'
  | _, _ => false
  end.

Definition LF : char := 10%N.        (* newline *)
Definition QUOTE : char := 34%N.     (* double quote *)
Definition LPAREN : char := 40%N.
Definition RPAREN : char := 41%N.
Definition PERIOD : char := 46%N.
Definition BACKSLASH : char := 92%N.

Definition is_ascii (c : char) : bool := (c <? 128)%N.

Definition ascii_lower (c : char) : char :=
  if ((65 <=? c) && (c <=? 90))%N then (c + 32)%N else c.

Definition ascii_decimal (c : char) : bool := ((48 <=? c) && (c <=? 57))%N.

(** ** Python values and exceptions *)

(** The values a decoded JSON payload is made of, and the ones the handler
    builds.  A dict keeps its insertion order, which [json.dumps] follows. *)
#[local] Unset Elimination Schemes.
Inductive value : Type :=
| VNone
| VBool (b : bool)
| VInt (z : Z)
| VStr (s : pystr)
| VList (l : list value)
| VDict (d : list (pystr * value)).
#[local] Set Elimination Schemes.

Definition dict := list (pystr * value).

Fixpoint dict_lookup (k : pystr) (d : dict) : option value :=
  match d with
  | [] => None
  | (k', v) :: d' => if pystr_eqb k k' then Some v else dict_lookup k d'
  end.

(** [type(v).__name__] *)
Definition type_name (v : value) : pystr :=
  match v with
  | VNone => str "NoneType"
  | VBool _ => str "bool"
  | VInt _ => str "int"
  | VStr _ => str "str"
  | VList _ => str "list"
  | VDict _ => str "dict"
  end.

(** What the handler's calls can raise: a method looked up on a value that
    has none of that name, a non-string handed to [re.match], a pattern the
    regex compiler refuses. *)
Inductive exn : Type :=
| AttributeError (type attr : pystr)
| TypeError (got : pystr)
| ReError (pattern : pystr).

Inductive except (A : Type) : Type :=
| Ok (a : A)
| Raise (e : exn).
Arguments Ok {A} a.
Arguments Raise {A} e.

Definition bind {A B} (m : except A) (f : A -> except B) : except B :=
  match m with
  | Ok a => f a
  | Raise e => Raise e
  end.

Notation "x <- m ;; k" := (bind m (fun x => k))
  (at level 61, m at next level, right associativity).

(** ** The parts of the Python runtime the repository does not contain *)

(** The Unicode character database behind [\d] and [str.lower] outside
    ASCII, and the wording of exception messages, differ between
    interpreter versions; every definition below takes them as given. *)
Class Runtime : Type := {
  unicode_decimal : char -> bool;
  unicode_lower : pystr -> pystr;
  exn_str : exn -> pystr
}.

(** A runtime that knows no character beyond ASCII, to run the model on
    ASCII inputs. *)
Definition ascii_runtime : Runtime := {|
  unicode_decimal := fun _ => false;
  unicode_lower := fun s => s;
  exn_str := fun e =>
    match e with
    | AttributeError t a =>
      str "'" ++ t ++ str "' object has no attribute '" ++ a ++ str "'"
    | TypeError t =>
      str "expected string or bytes-like object, got '" ++ t ++ str "'"
    | ReError p => str "bad pattern " ++ p
    end
|}.

(** ** Regular expressions: the subset of [re] the handler's patterns use *)

Module Sre.

(** One character of the subject. *)
Inductive charset : Type :=
| Literal (c : char)           (* an ordinary or escaped character *)
| Any                          (* [.]: anything but a newline *)
| Category_Digit               (* [\d] *)
| Not_In (cs : list char).     (* [[^...]] over literal characters *)

Inductive item : Type :=
| At_Beginning                                        (* [^] *)
| One (a : charset)
| Max_Repeat (lo : nat) (hi : option nat) (a : charset).  (* greedy [+], [{n}] *)

(** *** Parsing the pattern text *)

(** The parser reads the pattern one character at a time; [mode] is where
    it stands. *)
Inductive mode : Type :=
| Plain
| Escape                             (* after a backslash *)
| ClassOpen                          (* after [[] *)
| Class (cs : list char)             (* inside [[^ ...]] *)
| Count (n : option nat).            (* inside [{...}] *)

Definition digit_value (c : char) : option nat :=
  if ascii_decimal c then Some (N.to_nat (c - 48)) else None.

(** Characters with a meaning of their own outside a class. *)
Definition special (c : char) : bool :=
  existsb (N.eqb c) (str ".^$*+?{}[]\|()").

(** A quantifier applies to the single character before it. *)
Definition quantify (lo : nat) (hi : option nat) (acc : list item)
  : option (list item) :=
  match acc with
  | One a :: acc' => Some (Max_Repeat lo hi a :: acc')
  | _ => None
  end.

(** [acc] holds the items read so far, last first.  Whatever is outside
    the subset is refused. *)
Fixpoint parse (m : mode) (acc : list item) (p : pystr)
  : option (list item) :=
  match p with
  | [] => match m with Plain => Some (rev acc) | _ => None end
  | c :: p' =>
    match m with
    | Plain =>
      if (c =? 94)%N then                                   (* ^ *)
        parse Plain (At_Beginning :: acc) p'
      else if (c =? PERIOD)%N then
        parse Plain (One Any :: acc) p'
      else if (c =? BACKSLASH)%N then
        parse Escape acc p'
      else if (c =? 91)%N then                              (* [ *)
        parse ClassOpen acc p'
      else if (c =? 43)%N then                              (* + *)
        match quantify 1 None acc with
        | Some acc' => parse Plain acc' p'
        | None => None
        end
      else if (c =? 123)%N then                             (* { *)
        parse (Count None) acc p'
      else if special c then None
      else parse Plain (One (Literal c) :: acc) p'
    | Escape =>
      if (c =? 100)%N then                                  (* \d *)
        parse Plain (One Category_Digit :: acc) p'
      else if special c then
        parse Plain (One (Literal c) :: acc) p'
      else None
    | ClassOpen =>
      if (c =? 94)%N then parse (Class []) acc p' else None
    | Class cs =>
      if (c =? 93)%N then                                   (* ] *)
        match cs with
        | [] => parse (Class [c]) acc p'
        | _ => parse Plain (One (Not_In (rev cs)) :: acc) p'
        end
      else if ((c =? BACKSLASH) || (c =? 45) || (c =? 91))%N then None
      else parse (Class (c :: cs)) acc p'
    | Count n =>
      match digit_value c with
      | Some d =>
        parse (Count (Some (10 * match n with Some k => k | None => 0 end + d)))
              acc p'
      | None =>
        if (c =? 125)%N then                                (* } *)
          match n with
          | Some k =>
            match quantify k (Some k) acc with
            | Some acc' => parse Plain acc' p'
            | None => None
            end
          | None => None
          end
        else None
      end
    end
  end.

Definition sre_parse (pattern : pystr) : option (list item) :=
  parse Plain [] pattern.

(** *** Matching *)

Section Matching.
Context {rt : Runtime}.

(** [Py_UNICODE_ISDECIMAL] *)
Definition is_decimal (c : char) : bool :=
  if is_ascii c then ascii_decimal c else unicode_decimal c.

Definition charset_matches (a : charset) (c : char) : bool :=
  match a with
  | Literal x => (c =? x)%N
  | Any => negb (c =? LF)%N
  | Category_Digit => is_decimal c
  | Not_In cs => negb (existsb (N.eqb c) cs)
  end.

Definition may_take (n : nat) (hi : option nat) : bool :=
  match hi with
  | Some h => n <? h
  | None => true
  end.

(** A greedy repeat that has taken [n] characters: take one more while it
    can, and give back one at a time when the rest of the pattern, [k],
    fails.  [pos] is the offset of [s] in the subject; the result is the
    offset at which the whole match ends. *)
Fixpoint repeat_from (a : charset) (k : nat -> pystr -> option nat)
    (lo : nat) (hi : option nat) (n pos : nat) (s : pystr) {struct s}
  : option nat :=
  let stop := if lo <=? n then k pos s else None in
  match s with
  | c :: s' =>
    if may_take n hi && charset_matches a c then
      match repeat_from a k lo hi (S n) (S pos) s' with
      | Some e => Some e
      | None => stop
      end
    else stop
  | [] => stop
  end.

Fixpoint match_items (re : list item) (pos : nat) (s : pystr)
  : option nat :=
  match re with
  | [] => Some pos
  | At_Beginning :: re' =>
    if pos =? 0 then match_items re' pos s else None
  | One a :: re' =>
    match s with
    | c :: s' =>
      if charset_matches a c then match_items re' (S pos) s' else None
    | [] => None
    end
  | Max_Repeat lo hi a :: re' =>
    repeat_from a (match_items re') lo hi 0 pos s
  end.

(** *** What a pattern means *)

Definition within (hi : option nat) (n : nat) : Prop :=
  match hi with
  | Some h => n <= h
  | None => True
  end.

(** [matches re pos m]: the text [m], found at offset [pos] of the subject,
    is one the items [re] describe.  This is the meaning of a pattern, with
    no order of search in it; [match_items] is the search. *)
Inductive matches : list item -> nat -> pystr -> Prop :=
| matches_nil pos :
    matches [] pos []
| matches_beginning re m :
    matches re 0 m ->
    matches (At_Beginning :: re) 0 m
| matches_one a c re pos m :
    charset_matches a c = true ->
    matches re (S pos) m ->
    matches (One a :: re) pos (c :: m)
| matches_repeat lo hi a t re pos m :
    Forall (fun c => charset_matches a c = true) t ->
    lo <= length t ->
    within hi (length t) ->
    matches re (pos + length t) m ->
    matches (Max_Repeat lo hi a :: re) pos (t ++ m).

End Matching.

End Sre.

(** ** [json.dumps] *)

Module Json.

Definition hex_digit (n : N) : char :=
  if (n <? 10)%N then (48 + n)%N else (87 + n)%N.

(** [format(n, '04x')] for [n < 0x10000] *)
Definition hex4 (n : N) : pystr :=
  [ hex_digit (N.land (N.shiftr n 12) 15); hex_digit (N.land (N.shiftr n 8) 15);
    hex_digit (N.land (N.shiftr n 4) 15); hex_digit (N.land n 15) ].

Definition u_escape (n : N) : pystr := BACKSLASH :: 117%N :: hex4 n.

(** One character of a string under [ensure_ascii=True]. *)
Definition escape_char (c : char) : pystr :=
  if (c =? QUOTE)%N then [BACKSLASH; QUOTE]
  else if (c =? BACKSLASH)%N then [BACKSLASH; BACKSLASH]
  else if (c =? LF)%N then [BACKSLASH; 110%N]
  else if (c =? 13)%N then [BACKSLASH; 114%N]
  else if (c =? 9)%N then [BACKSLASH; 116%N]
  else if (c =? 12)%N then [BACKSLASH; 102%N]
  else if (c =? 8)%N then [BACKSLASH; 98%N]
  else if ((32 <=? c) && (c <=? 126))%N then [c]
  else if (c <? 65536)%N then u_escape c
  else
    let v := (c - 65536)%N in
    u_escape (N.lor 55296 (N.land (N.shiftr v 10) 1023))
    ++ u_escape (N.lor 56320 (N.land v 1023)).

Definition encode_string (s : pystr) : pystr :=
  QUOTE :: flat_map escape_char s ++ [QUOTE].

Fixpoint join (sep : pystr) (parts : list pystr) : pystr :=
  match parts with
  | [] => []
  | [x] => x
  | x :: rest => x ++ sep ++ join sep rest
  end.

Definition encode_int (z : Z) : pystr :=
  str (NilZero.string_of_int (Z.to_int z)).

Fixpoint dumps (v : value) : pystr :=
  match v with
  | VNone => str "null"
  | VBool true => str "true"
  | VBool false => str "false"
  | VInt z => encode_int z
  | VStr s => encode_string s
  | VList l => str "[" ++ join (str ", ") (map dumps l) ++ str "]"
  | VDict d =>
    str "{"
    ++ join (str ", ")
         (map (fun kv : pystr * value =>
                 let (k, x) := kv in encode_string k ++ str ": " ++ dumps x)
              d)
    ++ str "}"
  end.

End Json.

(** ** The handler *)

Section Handler.
Context {rt : Runtime}.

(** [s.lower()]; CPython maps a pure ASCII string letter by letter and
    sends everything else through the Unicode database. *)
Definition str_lower (s : pystr) : pystr :=
  if forallb is_ascii s then map ascii_lower s else unicode_lower s.

(** [obj.get(key, default)]: of the values above only a dict has [get]. *)
Definition call_get (obj : value) (key : pystr) (default : value)
  : except value :=
  match obj with
  | VDict d =>
    Ok match dict_lookup key d with Some v => v | None => default end
  | _ => Raise (AttributeError (type_name obj) (str "get"))
  end.

(** [obj.lower()]: only a str has [lower]. *)
Definition call_lower (obj : value) : except value :=
  match obj with
  | VStr s => Ok (VStr (str_lower s))
  | _ => Raise (AttributeError (type_name obj) (str "lower"))
  end.

(** [obj == 'literal'] *)
Definition eq_str (obj : value) (s : pystr) : bool :=
  match obj with
  | VStr x => pystr_eqb x s
  | _ => false
  end.

(** A match object; only its being there is ever looked at. *)
Record Match : Type := { span : nat * nat }.

(** [re.match(pattern, string)]: the pattern is compiled first, then run
    from the start of the subject, which has to be a str. *)
Definition re_match (pattern : pystr) (string : value)
  : except (option Match) :=
  match Sre.sre_parse pattern with
  | None => Raise (ReError pattern)
  | Some re =>
    match string with
    | VStr s =>
      Ok (option_map (fun e => {| span := (0, e) |}) (Sre.match_items re 0 s))
    | _ => Raise (TypeError (type_name string))
    end
  end.

(** [bool(match)], and [match] as a condition *)
Definition truthy (m : option Match) : bool :=
  match m with
  | Some _ => true
  | None => false
  end.

Definition validate_apa (citation : value) : except dict :=
  let pattern := str "^[^(]+\(\d{4}\)\..+" in
  match_ <- re_match pattern citation ;;
  Ok [ (str "formatCorrect", VBool (truthy match_));
       (str "hasRequiredFields", VBool (truthy match_));
       (str "issues",
        VList (if truthy match_ then []
               else [VStr (str "Does not match APA format")])) ].

Definition validate_mla (citation : value) : except dict :=
  let pattern := str "^[^.]+\..+" in
  match_ <- re_match pattern citation ;;
  Ok [ (str "formatCorrect", VBool (truthy match_));
       (str "hasRequiredFields", VBool (truthy match_));
       (str "issues",
        VList (if truthy match_ then []
               else [VStr (str "Does not match MLA format")])) ].

Definition validate_citation (citation format_type : value) : except dict :=
  if eq_str format_type (str "apa") then validate_apa citation
  else if eq_str format_type (str "mla") then validate_mla citation
  else Ok [ (str "formatCorrect", VBool false);
            (str "issues", VList [VStr (str "Unsupported format")]) ].

(** The body of the [try]. *)
Definition handle (event : value) : except value :=
  citation <- call_get event (str "citation") (VStr []) ;;
  format <- call_get event (str "format") (VStr (str "apa")) ;;
  format_type <- call_lower format ;;
  result <- validate_citation citation format_type ;;
  Ok (VDict [ (str "statusCode", VInt 200);
              (str "body", VStr (Json.dumps (VDict result))) ]).

Definition lambda_handler {C : Type} (event : value) (context : C) : value :=
  match handle event with
  | Ok response => response
  | Raise e =>
    VDict [ (str "statusCode", VInt 500);
            (str "body",
             VStr (Json.dumps (VDict [(str "error", VStr (exn_str e))]))) ]
  end.

End Handler.

(** ** The format rules in words *)

Section Rules.
Context {rt : Runtime}.

(** A field of a result. *)
Definition field (name : string) (r : dict) : option value :=
  dict_lookup (str name) r.

(** The APA rule as the specification words it: one or more characters
    that are not an opening parenthesis, an opening parenthesis, exactly
    four digits, a closing parenthesis, a period, then one or more
    additional characters. *)
Definition apa_stated (s : pystr) : Prop :=
  exists author year rest,
    s = author ++ [LPAREN] ++ year ++ [RPAREN; PERIOD] ++ rest /\
    author <> [] /\ Forall (fun c => c <> LPAREN) author /\
    length year = 4 /\ Forall (fun c => Sre.is_decimal c = true) year /\
    rest <> [].

(** The same, with the character after the period not a newline. *)
Definition apa_accepted (s : pystr) : Prop :=
  exists author year c rest,
    s = author ++ [LPAREN] ++ year ++ [RPAREN; PERIOD] ++ c :: rest /\
    author <> [] /\ Forall (fun c => c <> LPAREN) author /\
    length year = 4 /\ Forall (fun c => Sre.is_decimal c = true) year /\
    c <> LF.

(** The MLA rule as the specification words it: a non-empty leading
    segment terminated by a period (the segment runs up to the first
    period), followed by at least one additional character. *)
Definition mla_stated (s : pystr) : Prop :=
  exists lead rest,
    s = lead ++ [PERIOD] ++ rest /\
    lead <> [] /\ Forall (fun c => c <> PERIOD) lead /\
    rest <> [].

(** The same, with the character after the period not a newline. *)
Definition mla_accepted (s : pystr) : Prop :=
  exists lead c rest,
    s = lead ++ [PERIOD] ++ c :: rest /\
    lead <> [] /\ Forall (fun c => c <> PERIOD) lead /\
    c <> LF.

(** The two patterns of the handler, parsed. *)
Definition apa_items : list Sre.item :=
  [ Sre.At_Beginning; Sre.Max_Repeat 1 None (Sre.Not_In [LPAREN]);
    Sre.One (Sre.Literal LPAREN); Sre.Max_Repeat 4 (Some 4) Sre.Category_Digit;
    Sre.One (Sre.Literal RPAREN); Sre.One (Sre.Literal PERIOD);
    Sre.Max_Repeat 1 None Sre.Any ].

Definition mla_items : list Sre.item :=
  [ Sre.At_Beginning; Sre.Max_Repeat 1 None (Sre.Not_In [PERIOD]);
    Sre.One (Sre.Literal PERIOD); Sre.Max_Repeat 1 None Sre.Any ].

(** What a request does with a payload that lacks a field. *)
Definition citation_of (payload : dict) : value :=
  match dict_lookup (str "citation") payload with
  | Some v => v
  | None => VStr []
  end.

Definition format_of (payload : dict) : value :=
  match dict_lookup (str "format") payload with
  | Some v => v
  | None => VStr (str "apa")
  end.

(** Whether the search from the start of [s] finds a match. *)
Definition found (re : list Sre.item) (s : pystr) : bool :=
  match Sre.match_items re 0 s with
  | Some _ => true
  | None => false
  end.

(** The result of a recognised style. *)
Definition verdict (ok : bool) (issue : string) : dict :=
  [ (str "formatCorrect", VBool ok);
    (str "hasRequiredFields", VBool ok);
    (str "issues", VList (if ok then [] else [VStr (str issue)])) ].

(** The result the specification gives for an unknown style, and the one
    the [else] branch of [validate_citation] builds. *)
Definition unsupported_stated : dict :=
  [ (str "formatCorrect", VBool false);
    (str "hasRequiredFields", VBool false);
    (str "issues", VList [VStr (str "Unsupported format")]) ].

Definition unsupported_built : dict :=
  [ (str "formatCorrect", VBool false);
    (str "issues", VList [VStr (str "Unsupported format")]) ].

(** Citations whose text after the year, or after the first period, goes
    on in the next line. *)
Definition apa_two_lines : pystr :=
  str "Smith, J. (2020)." ++ LF :: str "A study of things.".

Definition mla_two_lines : pystr :=
  str "Smith, John." ++ LF :: str "A Study of Things.".

End Rules.

(** ** Faults in words *)

Section Faults.
Context {rt : Runtime}.

Definition is_str (v : value) : bool :=
  match v with
  | VStr _ => true
  | _ => false
  end.

Definition is_dict (v : value) : bool :=
  match v with
  | VDict _ => true
  | _ => false
  end.

(** Whether a style, as [validate_citation] receives it, selects one of
    the two rules. *)
Definition known_style (format_type : value) : bool :=
  eq_str format_type (str "apa") || eq_str format_type (str "mla").


(** The response of the [except] branch to the exception [e]. *)
Definition fault_response (e : exn) : value :=
  VDict [ (str "statusCode", VInt 500);
          (str "body",
           VStr (Json.dumps (VDict [(str "error", VStr (exn_str e))]))) ].

End Faults.

(** ** The state of the process *)

(** [re.match] is more than a function of its arguments: the [re] module
    keeps the patterns it has compiled in a cache of the process, which
    every call reads and may write.  It is the one piece of state the
    handler reaches.  This module runs the same four functions with the
    cache threaded through them; the definitions above are these with the
    cache left out. *)
Module Process.

(** [re._cache]: the compiled patterns by their text, oldest first.  The
    handler's patterns are all of type str and compiled with no flags, so
    the text is the whole key. *)
Definition cache := list (pystr * list Sre.item).

(** A computation that may raise, and that reads and writes the cache. *)
Definition M (A : Type) : Type := cache -> except A * cache.

Definition ret {A} (a : A) : M A := fun c => (Ok a, c).

Definition raise {A} (e : exn) : M A := fun c => (Raise e, c).

Definition bindM {A B} (m : M A) (f : A -> M B) : M B :=
  fun c =>
    match m c with
    | (Ok a, c') => f a c'
    | (Raise e, c') => (Raise e, c')
    end.

Notation "x <~ m ;; k" := (bindM m (fun x => k))
  (at level 61, m at next level, right associativity).

Fixpoint cache_lookup (pattern : pystr) (c : cache)
  : option (list Sre.item) :=
  match c with
  | [] => None
  | (p, re) :: c' =>
    if pystr_eqb pattern p then Some re else cache_lookup pattern c'
  end.

Section WithCache.
Context {rt : Runtime}.

(** [re._MAXCACHE], which is not the same in every version of [re]. *)
Variable maxcache : nat.

(** [re._compile(pattern, 0)]: a pattern found in the cache is not
    compiled again; a pattern compiled is put in the cache, the oldest
    entry making room for it when the cache is full. *)
Definition compile (pattern : pystr) : M (list Sre.item) :=
  fun c =>
    match cache_lookup pattern c with
    | Some re => (Ok re, c)
    | None =>
      match Sre.sre_parse pattern with
      | None => (Raise (ReError pattern), c)
      | Some re =>
        (Ok re, (if maxcache <=? length c then tl c else c) ++ [(pattern, re)])
      end
    end.

(** [re.match(pattern, string)] *)
Definition re_match (pattern : pystr) (string : value) : M (option Match) :=
  re <~ compile pattern ;;
  match string with
  | VStr s =>
    ret (option_map (fun e => {| span := (0, e) |}) (Sre.match_items re 0 s))
  | _ => raise (TypeError (type_name string))
  end.

Definition validate_apa (citation : value) : M dict :=
  let pattern := str "^[^(]+\(\d{4}\)\..+" in
  match_ <~ re_match pattern citation ;;
  ret [ (str "formatCorrect", VBool (truthy match_));
        (str "hasRequiredFields", VBool (truthy match_));
        (str "issues",
         VList (if truthy match_ then []
                else [VStr (str "Does not match APA format")])) ].

Definition validate_mla (citation : value) : M dict :=
  let pattern := str "^[^.]+\..+" in
  match_ <~ re_match pattern citation ;;
  ret [ (str "formatCorrect", VBool (truthy match_));
        (str "hasRequiredFields", VBool (truthy match_));
        (str "issues",
         VList (if truthy match_ then []
                else [VStr (str "Does not match MLA format")])) ].

Definition validate_citation (citation format_type : value) : M dict :=
  if eq_str format_type (str "apa") then validate_apa citation
  else if eq_str format_type (str "mla") then validate_mla citation
  else ret [ (str "formatCorrect", VBool false);
             (str "issues", VList [VStr (str "Unsupported format")]) ].

(** What the process has run: calls of [validate_citation], and calls of
    [re.match] made by any other code of the process. *)
Inductive call : Type :=
| Validate (citation format_type : value)
| Match_ (pattern : pystr) (string : value).

(** The cache a call leaves behind, whether it returned or raised. *)
Definition after (k : call) (c : cache) : cache :=
  match k with
  | Validate citation format_type =>
    snd (validate_citation citation format_type c)
  | Match_ pattern string => snd (re_match pattern string c)
  end.

Definition run (history : list call) (c : cache) : cache :=
  fold_left (fun c k => after k c) history c.

End WithCache.

(** Every entry of the cache is the compiled form of its pattern. *)
Definition coherent (c : cache) : Prop :=
  Forall (fun entry => Sre.sre_parse (fst entry) = Some (snd entry)) c.

End Process.

(** * Properties *)

(** ** The matcher finds a match exactly when the pattern has one *)

Module SreFacts.
Import Sre.

Section Search.
Context {rt : Runtime}.

Lemma may_take_within n hi :
  within hi n -> may_take n hi = true -> within hi (S n).
Proof.
  destruct hi as [h|]; simpl; trivial.
  intros _ H. apply Nat.ltb_lt in H. lia.
Qed.

(** A repeat that answers has taken a run of matching characters of an
    allowed length, and the rest of the pattern gave the answer. *)
Lemma repeat_from_sound a k lo hi s :
  forall n pos e,
    within hi n ->
    repeat_from a k lo hi n pos s = Some e ->
    exists t r,
      s = t ++ r /\
      Forall (fun c => charset_matches a c = true) t /\
      lo <= n + length t /\ within hi (n + length t) /\
      k (pos + length t) r = Some e.
Proof.
  assert (Hstop : forall n pos e r, within hi n ->
            (if lo <=? n then k pos r else None) = Some e ->
            exists t r', r = t ++ r' /\
              Forall (fun c => charset_matches a c = true) t /\
              lo <= n + length t /\ within hi (n + length t) /\
              k (pos + length t) r' = Some e).
  { intros n pos e r Hn H. destruct (lo <=? n) eqn:Hlo; [|discriminate].
    apply Nat.leb_le in Hlo. exists [], r. simpl.
    rewrite !Nat.add_0_r. auto. }
  induction s as [|c s IH]; intros n pos e Hn H; simpl in H.
  - now apply Hstop.
  - destruct (may_take n hi && charset_matches a c) eqn:Htake.
    + apply andb_true_iff in Htake as [Hmay Hc].
      destruct (repeat_from a k lo hi (S n) (S pos) s) as [e'|] eqn:Hrec.
      * injection H as <-.
        destruct (IH _ _ _ (may_take_within _ _ Hn Hmay) Hrec)
          as (t & r & -> & Ht & Hlo & Hhi & Hk).
        exists (c :: t), r. simpl.
        rewrite !Nat.add_succ_r. repeat split; auto.
      * now apply Hstop.
    + now apply Hstop.
Qed.

(** Conversely the greedy search misses no way of splitting the text. *)
Lemma repeat_from_complete a k lo hi t :
  forall n pos r e,
    Forall (fun c => charset_matches a c = true) t ->
    lo <= n + length t -> within hi (n + length t) ->
    k (pos + length t) r = Some e ->
    exists e', repeat_from a k lo hi n pos (t ++ r) = Some e'.
Proof.
  induction t as [|c t IH]; intros n pos r e Ht Hlo Hhi Hk; simpl in *.
  - rewrite Nat.add_0_r in *.
    assert (Hstop : (if lo <=? n then k pos r else None) = Some e).
    { apply Nat.leb_le in Hlo. now rewrite Hlo. }
    destruct r as [|c r]; simpl; [eauto|].
    destruct (may_take n hi && charset_matches a c); [|eauto].
    destruct (repeat_from a k lo hi (S n) (S pos) r); eauto.
  - inversion Ht as [|? ? Hc Ht']; subst.
    assert (Hmay : may_take n hi = true).
    { destruct hi as [h|]; simpl in *; trivial. apply Nat.ltb_lt. lia. }
    rewrite Hmay, Hc. simpl.
    rewrite Nat.add_succ_r in Hlo, Hhi, Hk.
    destruct (IH (S n) (S pos) r e Ht' Hlo Hhi Hk) as [e' ->]. eauto.
Qed.

Lemma match_items_sound re :
  forall pos s e,
    match_items re pos s = Some e ->
    exists m rest, s = m ++ rest /\ matches re pos m /\ e = pos + length m.
Proof.
  induction re as [|it re IH]; intros pos s e H; simpl in H.
  - injection H as <-. exists [], s. simpl.
    rewrite Nat.add_0_r. auto using matches_nil.
  - destruct it as [|a|lo hi a].
    + destruct pos; simpl in H; [|discriminate].
      destruct (IH _ _ _ H) as (m & rest & -> & Hm & ->).
      exists m, rest. auto using matches_beginning.
    + destruct s as [|c s]; [discriminate|].
      destruct (charset_matches a c) eqn:Hc; [|discriminate].
      destruct (IH _ _ _ H) as (m & rest & -> & Hm & ->).
      exists (c :: m), rest. simpl.
      rewrite Nat.add_succ_r. auto using matches_one.
    + apply repeat_from_sound in H as (t & r & -> & Ht & Hlo & Hhi & Hk).
      * destruct (IH _ _ _ Hk) as (m & rest & -> & Hm & ->).
        exists (t ++ m), rest.
        rewrite length_app, <- app_assoc, Nat.add_assoc.
        auto using matches_repeat.
      * destruct hi; simpl; [lia|trivial].
Qed.

Lemma match_items_complete re pos m :
  matches re pos m ->
  forall rest, exists e, match_items re pos (m ++ rest) = Some e.
Proof.
  induction 1 as [pos|re m _ IH|a c re pos m Hc _ IH
                 |lo hi a t re pos m Ht Hlo Hhi _ IH]; intros rest; simpl.
  - eauto.
  - apply IH.
  - rewrite Hc. apply IH.
  - destruct (IH rest) as [e He]. rewrite <- app_assoc.
    eapply repeat_from_complete; eauto.
Qed.

(** The search succeeds exactly on the subjects that start with a text
    the pattern describes. *)
Lemma match_items_spec re s :
  (exists e, match_items re 0 s = Some e) <->
  (exists m rest, s = m ++ rest /\ matches re 0 m).
Proof.
  split.
  - intros [e H]. apply match_items_sound in H as (m & rest & ? & ? & _).
    eauto.
  - intros (m & rest & -> & H). now apply match_items_complete.
Qed.

End Search.
End SreFacts.

(** ** What the two patterns accept *)

Section Patterns.
Context {rt : Runtime}.
Import Sre.

Lemma apa_pattern_parses :
  sre_parse (str "^[^(]+\(\d{4}\)\..+") = Some apa_items.
Proof. reflexivity. Qed.

Lemma mla_pattern_parses :
  sre_parse (str "^[^.]+\..+") = Some mla_items.
Proof. reflexivity. Qed.

Lemma literal_matches x c : charset_matches (Literal x) c = true <-> c = x.
Proof. simpl. apply N.eqb_eq. Qed.

Lemma any_matches c : charset_matches Any c = true <-> c <> LF.
Proof. simpl. rewrite negb_true_iff. apply N.eqb_neq. Qed.

Lemma not_in_matches x c : charset_matches (Not_In [x]) c = true <-> c <> x.
Proof.
  simpl. rewrite orb_false_r, negb_true_iff. apply N.eqb_neq.
Qed.

Lemma Forall_equiv {A} (P Q : A -> Prop) l :
  (forall x, P x <-> Q x) -> Forall P l <-> Forall Q l.
Proof. intros H. split; apply Forall_impl; intros x; apply H. Qed.

Lemma all_not_in x t :
  Forall (fun c => charset_matches (Not_In [x]) c = true) t <->
  Forall (fun c => c <> x) t.
Proof. apply Forall_equiv. intros c. apply not_in_matches. Qed.

Lemma all_any t :
  Forall (fun c => charset_matches Any c = true) t <->
  Forall (fun c => c <> LF) t.
Proof. apply Forall_equiv. intros c. apply any_matches. Qed.

Lemma nonempty_length {A} (l : list A) : 1 <= length l <-> l <> [].
Proof. destruct l; simpl; split; (congruence || lia). Qed.

Ltac invert_matches :=
  repeat match goal with
         | H : matches (_ :: _) _ _ |- _ => inversion H; subst; clear H
         | H : matches [] _ _ |- _ => inversion H; subst; clear H
         | H : charset_matches (Literal _) _ = true |- _ =>
           apply literal_matches in H; subst
         end.

(** The texts the APA pattern describes. *)
Lemma apa_items_matches m :
  matches apa_items 0 m <->
  exists author year tail,
    m = author ++ [LPAREN] ++ year ++ [RPAREN; PERIOD] ++ tail /\
    author <> [] /\ Forall (fun c => c <> LPAREN) author /\
    length year = 4 /\ Forall (fun c => is_decimal c = true) year /\
    tail <> [] /\ Forall (fun c => c <> LF) tail.
Proof.
  unfold apa_items. split.
  - intros H. invert_matches.
    match goal with
    | Ha : Forall _ ?author, Hy : Forall _ ?year, Ht : Forall _ ?tail |- _ =>
      exists author, year, tail
    end.
    rewrite app_nil_r. simpl in *.
    repeat split; try (apply nonempty_length; assumption);
      try (apply all_not_in; assumption); try (apply all_any; assumption);
      try assumption; lia.
  - intros (author & year & tail & -> & Ha & Hna & Hy & Hd & Ht & Hnl).
    apply matches_beginning.
    apply matches_repeat;
      [now apply all_not_in | now apply nonempty_length | exact I |].
    apply matches_one; [now apply literal_matches|].
    apply matches_repeat; [exact Hd | lia | simpl; lia |].
    apply matches_one; [now apply literal_matches|].
    apply matches_one; [now apply literal_matches|].
    rewrite <- (app_nil_r tail).
    apply matches_repeat;
      [now apply all_any | now apply nonempty_length | exact I |].
    apply matches_nil.
Qed.

(** The texts the MLA pattern describes. *)
Lemma mla_items_matches m :
  matches mla_items 0 m <->
  exists lead tail,
    m = lead ++ [PERIOD] ++ tail /\
    lead <> [] /\ Forall (fun c => c <> PERIOD) lead /\
    tail <> [] /\ Forall (fun c => c <> LF) tail.
Proof.
  unfold mla_items. split.
  - intros H. invert_matches.
    match goal with
    | Ha : Forall _ ?lead, Ht : Forall _ ?tail |- _ => exists lead, tail
    end.
    rewrite app_nil_r. simpl in *.
    repeat split; try (apply nonempty_length; assumption);
      try (apply all_not_in; assumption); try (apply all_any; assumption).
  - intros (lead & tail & -> & Ha & Hna & Ht & Hnl).
    apply matches_beginning.
    apply matches_repeat;
      [now apply all_not_in | now apply nonempty_length | exact I |].
    apply matches_one; [now apply literal_matches|].
    rewrite <- (app_nil_r tail).
    apply matches_repeat;
      [now apply all_any | now apply nonempty_length | exact I |].
    apply matches_nil.
Qed.

End Patterns.

(** ** The validators on strings *)

Section Validators.
Context {rt : Runtime}.

Lemma pystr_eqb_eq a : forall b, pystr_eqb a b = true -> a = b.
Proof.
  induction a as [|x a IH]; intros [|y b] H; simpl in H;
    try discriminate; [reflexivity|].
  apply andb_true_iff in H as [Hx Hab].
  apply N.eqb_eq in Hx. now rewrite Hx, (IH _ Hab).
Qed.

Lemma found_spec re s :
  found re s = true <->
  exists m rest, s = m ++ rest /\ Sre.matches re 0 m.
Proof.
  rewrite <- SreFacts.match_items_spec. unfold found.
  destruct (Sre.match_items re 0 s); split; eauto; try discriminate.
  intros [e H]. discriminate.
Qed.

Lemma found_apa s : found apa_items s = true <-> apa_accepted s.
Proof.
  rewrite found_spec. split.
  - intros (m & rest & -> & H).
    apply apa_items_matches in H
      as (author & year & tail & -> & Ha & Hna & Hy & Hd & Ht & Hnl).
    destruct tail as [|c tail]; [congruence|].
    exists author, year, c, (tail ++ rest).
    inversion Hnl; subst. repeat split; auto.
    now rewrite <- !app_assoc.
  - intros (author & year & c & rest & -> & Ha & Hna & Hy & Hd & Hc).
    exists (author ++ [LPAREN] ++ year ++ [RPAREN; PERIOD] ++ [c]), rest.
    split; [now rewrite <- !app_assoc|].
    apply apa_items_matches. exists author, year, [c].
    repeat split; auto. discriminate.
Qed.

Lemma found_mla s : found mla_items s = true <-> mla_accepted s.
Proof.
  rewrite found_spec. split.
  - intros (m & rest & -> & H).
    apply mla_items_matches in H as (lead & tail & -> & Ha & Hna & Ht & Hnl).
    destruct tail as [|c tail]; [congruence|].
    exists lead, c, (tail ++ rest).
    inversion Hnl; subst. repeat split; auto.
    now rewrite <- !app_assoc.
  - intros (lead & c & rest & -> & Ha & Hna & Hc).
    exists (lead ++ [PERIOD] ++ [c]), rest.
    split; [now rewrite <- !app_assoc|].
    apply mla_items_matches. exists lead, [c].
    repeat split; auto. discriminate.
Qed.

Lemma truthy_found re s :
  truthy (option_map (fun e => {| span := (0, e) |}) (Sre.match_items re 0 s))
  = found re s.
Proof. unfold found. now destruct (Sre.match_items re 0 s). Qed.

Lemma validate_apa_str s :
  validate_apa (VStr s)
  = Ok (verdict (found apa_items s) "Does not match APA format").
Proof.
  unfold validate_apa, re_match. cbv zeta. rewrite apa_pattern_parses.
  unfold bind. now rewrite truthy_found.
Qed.

Lemma validate_mla_str s :
  validate_mla (VStr s)
  = Ok (verdict (found mla_items s) "Does not match MLA format").
Proof.
  unfold validate_mla, re_match. cbv zeta. rewrite mla_pattern_parses.
  unfold bind. now rewrite truthy_found.
Qed.

(** On two strings [validate_citation] is one of three results. *)
Lemma validate_citation_str c f :
  validate_citation (VStr c) (VStr f)
  = Ok (if pystr_eqb f (str "apa")
        then verdict (found apa_items c) "Does not match APA format"
        else if pystr_eqb f (str "mla")
        then verdict (found mla_items c) "Does not match MLA format"
        else unsupported_built).
Proof.
  unfold validate_citation, eq_str.
  destruct (pystr_eqb f (str "apa")); [apply validate_apa_str|].
  destruct (pystr_eqb f (str "mla")); [apply validate_mla_str|].
  reflexivity.
Qed.

Lemma verdict_fields ok issue :
  field "formatCorrect" (verdict ok issue) = Some (VBool ok) /\
  field "hasRequiredFields" (verdict ok issue) = Some (VBool ok) /\
  field "issues" (verdict ok issue)
  = Some (VList (if ok then [] else [VStr (str issue)])).
Proof. repeat split. Qed.

(** Where the first occurrence of a character is, is decided by the text. *)
Lemma first_occurrence_unique (x : char) l1 :
  forall l2 r1 r2,
    Forall (fun c => c <> x) l1 -> Forall (fun c => c <> x) l2 ->
    l1 ++ x :: r1 = l2 ++ x :: r2 -> l1 = l2 /\ r1 = r2.
Proof.
  induction l1 as [|a l1 IH]; intros [|b l2] r1 r2 H1 H2 E; simpl in E.
  - injection E as ->. auto.
  - injection E as <- _. inversion H2; congruence.
  - injection E as -> _. inversion H1; congruence.
  - injection E as -> E. inversion H1; inversion H2; subst.
    destruct (IH _ _ _ H4 H8 E) as [-> ->]. auto.
Qed.

End Validators.

(** ** The format rules *)

(** Closes [Forall P l] for a list written out, where each [P x] holds by
    computation. *)
Ltac forall_concrete :=
  repeat (apply Forall_cons; [first [discriminate | reflexivity] |]);
  apply Forall_nil.

(** C1, as amended.  With style [apa] a citation is judged correct exactly
    when it is: one or more characters other than an opening parenthesis,
    an opening parenthesis, four digits, a closing parenthesis, a period
    and then a character that is not a newline (anything may follow it).
    A correct citation has no issues; any other has [formatCorrect] false
    and the one issue "Does not match APA format". *)
Theorem apa_format_correct (rt : Runtime) (s : pystr) :
  exists r,
    validate_citation (VStr s) (VStr (str "apa")) = Ok r /\
    ((apa_accepted s /\
      field "formatCorrect" r = Some (VBool true) /\
      field "issues" r = Some (VList []))
     \/
     (~ apa_accepted s /\
      field "formatCorrect" r = Some (VBool false) /\
      field "issues" r
      = Some (VList [VStr (str "Does not match APA format")]))).
Proof.
  exists (verdict (found apa_items s) "Does not match APA format").
  split; [now rewrite validate_citation_str|].
  destruct (found apa_items s) eqn:E.
  - left. split; [now apply found_apa | split; reflexivity].
  - right. split; [|split; reflexivity].
    intros H. apply found_apa in H. congruence.
Qed.

(** C1 as stated fails: a citation whose text after "(2020)." starts on
    the next line has every part the stated rule asks for, and is judged
    incorrect. *)
Lemma apa_stated_rule_fails :
  (forall rt : Runtime, apa_stated apa_two_lines) /\
  (forall rt : Runtime,
     validate_citation (VStr apa_two_lines) (VStr (str "apa"))
     = Ok (verdict false "Does not match APA format")).
Proof.
  split; intros rt.
  - exists (str "Smith, J. "), (str "2020"), (LF :: str "A study of things.").
    repeat split; try discriminate; forall_concrete.
  - reflexivity.
Qed.

(** C2, as amended.  With style [mla] a citation is judged correct exactly
    when it is: one or more characters other than a period, a period and
    then a character that is not a newline (anything may follow it).  A
    correct citation has no issues; any other has [formatCorrect] false and
    the one issue "Does not match MLA format". *)
Theorem mla_format_correct (rt : Runtime) (s : pystr) :
  exists r,
    validate_citation (VStr s) (VStr (str "mla")) = Ok r /\
    ((mla_accepted s /\
      field "formatCorrect" r = Some (VBool true) /\
      field "issues" r = Some (VList []))
     \/
     (~ mla_accepted s /\
      field "formatCorrect" r = Some (VBool false) /\
      field "issues" r
      = Some (VList [VStr (str "Does not match MLA format")]))).
Proof.
  exists (verdict (found mla_items s) "Does not match MLA format").
  split; [now rewrite validate_citation_str|].
  destruct (found mla_items s) eqn:E.
  - left. split; [now apply found_mla | split; reflexivity].
  - right. split; [|split; reflexivity].
    intros H. apply found_mla in H. congruence.
Qed.

(** C2 as stated fails: a citation whose text after the first period
    starts on the next line has the leading segment, the period and the
    additional characters of the stated rule, and is judged incorrect. *)
Lemma mla_stated_rule_fails :
  (forall rt : Runtime, mla_stated mla_two_lines) /\
  (forall rt : Runtime,
     validate_citation (VStr mla_two_lines) (VStr (str "mla"))
     = Ok (verdict false "Does not match MLA format")).
Proof.
  split; intros rt.
  - exists (str "Smith, John"), (LF :: str "A Study of Things.").
    repeat split; try discriminate; forall_concrete.
  - reflexivity.
Qed.

(** C10.  With style [mla], a citation whose first period is followed at
    once by a newline is judged incorrect, whatever comes after the
    newline. *)
Theorem mla_newline_after_first_period (rt : Runtime) (lead rest : pystr) :
  Forall (fun c => c <> PERIOD) lead ->
  exists r,
    validate_citation (VStr (lead ++ PERIOD :: LF :: rest)) (VStr (str "mla"))
    = Ok r /\
    field "formatCorrect" r = Some (VBool false) /\
    field "issues" r = Some (VList [VStr (str "Does not match MLA format")]).
Proof.
  intros Hlead. rewrite validate_citation_str. simpl pystr_eqb. cbv iota.
  destruct (found mla_items (lead ++ PERIOD :: LF :: rest)) eqn:E.
  - exfalso. apply found_mla in E as (lead' & c & rest' & E & _ & Hlead' & Hc).
    apply (first_occurrence_unique PERIOD) in E as [_ E]; auto.
    congruence.
  - now exists (verdict false "Does not match MLA format").
Qed.

Lemma mla_newline_after_first_period_witness :
  Forall (fun c => c <> PERIOD) (str "Smith") /\
  exists r,
    validate_citation (rt := ascii_runtime)
      (VStr (str "Smith" ++ PERIOD :: LF :: str "Title")) (VStr (str "mla"))
    = Ok r /\
    field "formatCorrect" r = Some (VBool false) /\
    field "issues" r = Some (VList [VStr (str "Does not match MLA format")]).
Proof.
  assert (H : Forall (fun c => c <> PERIOD) (str "Smith"))
    by forall_concrete.
  split; [exact H|].
  exact (mla_newline_after_first_period ascii_runtime _ _ H).
Defined.

(** ** Results *)

(** C4.  Whatever the citation and the style, the result has no issues
    exactly when its [formatCorrect] is true. *)
Theorem issues_empty_iff_format_correct (rt : Runtime) (c f : pystr) :
  exists r ok issues,
    validate_citation (VStr c) (VStr f) = Ok r /\
    field "formatCorrect" r = Some (VBool ok) /\
    field "issues" r = Some (VList issues) /\
    (issues = [] <-> ok = true).
Proof.
  rewrite validate_citation_str.
  destruct (pystr_eqb f (str "apa")); [|destruct (pystr_eqb f (str "mla"))].
  - destruct (found apa_items c); eexists _, _, _;
      (split; [reflexivity|split; [reflexivity|split; [reflexivity|]]]);
      split; congruence.
  - destruct (found mla_items c); eexists _, _, _;
      (split; [reflexivity|split; [reflexivity|split; [reflexivity|]]]);
      split; congruence.
  - eexists _, _, _.
    (split; [reflexivity|split; [reflexivity|split; [reflexivity|]]]).
    split; congruence.
Qed.

(** On two strings [validate_citation] returns. *)
Lemma validate_citation_returns (rt : Runtime) (c f : pystr) :
  exists r, validate_citation (VStr c) (VStr f) = Ok r.
Proof. rewrite validate_citation_str. eauto. Qed.

(** C5.  On a citation string and a style string [validate_citation]
    raises nothing: it returns a result, with its verdict and its list of
    issues, also for the empty citation and for a style it does not
    know. *)
Theorem validate_citation_never_raises (rt : Runtime) (c f : pystr) :
  exists r ok issues,
    validate_citation (VStr c) (VStr f) = Ok r /\
    field "formatCorrect" r = Some (VBool ok) /\
    field "issues" r = Some (VList (map VStr issues)).
Proof.
  rewrite validate_citation_str.
  destruct (pystr_eqb f (str "apa")); [|destruct (pystr_eqb f (str "mla"))].
  - destruct (found apa_items c).
    + now exists (verdict true "Does not match APA format"), true, [].
    + now exists (verdict false "Does not match APA format"), false,
        [str "Does not match APA format"].
  - destruct (found mla_items c).
    + now exists (verdict true "Does not match MLA format"), true, [].
    + now exists (verdict false "Does not match MLA format"), false,
        [str "Does not match MLA format"].
  - now exists unsupported_built, false, [str "Unsupported format"].
Qed.

(** C3, on the code.  For a style other than "apa" and "mla" the result
    is the record the [else] branch builds, which has two fields; it is not
    the record of three fields the specification gives. *)
Theorem unsupported_style_result (rt : Runtime) (c f : pystr) :
  (f = str "apa" \/ f = str "mla" \/
   validate_citation (VStr c) (VStr f) = Ok unsupported_built) /\
  unsupported_built <> unsupported_stated.
Proof.
  split; [|discriminate]. rewrite validate_citation_str.
  destruct (pystr_eqb f (str "apa")) eqn:Ha;
    [left; now apply pystr_eqb_eq|].
  destruct (pystr_eqb f (str "mla")) eqn:Hm;
    [right; left; now apply pystr_eqb_eq|].
  now right; right.
Qed.

(** C7, on the code.  For a style other than "apa" and "mla" the result
    has a [formatCorrect] field and no [hasRequiredFields] field. *)
Theorem unsupported_style_lacks_required_fields (rt : Runtime)
    (c f : pystr) :
  f = str "apa" \/ f = str "mla" \/
  exists r,
    validate_citation (VStr c) (VStr f) = Ok r /\
    field "formatCorrect" r = Some (VBool false) /\
    field "hasRequiredFields" r = None.
Proof.
  rewrite validate_citation_str.
  destruct (pystr_eqb f (str "apa")) eqn:Ha;
    [left; now apply pystr_eqb_eq|].
  destruct (pystr_eqb f (str "mla")) eqn:Hm;
    [right; left; now apply pystr_eqb_eq|].
  right; right. now exists unsupported_built.
Qed.

(** The style "chicago" of the specification is such a style. *)
Example chicago_result (rt : Runtime) (c : pystr) :
  validate_citation (VStr c) (VStr (str "chicago")) = Ok unsupported_built /\
  field "hasRequiredFields" unsupported_built = None.
Proof. now rewrite validate_citation_str. Qed.

(** X1.  For the two styles the handler knows, [hasRequiredFields] is
    there and equal to [formatCorrect]. *)
Lemma required_fields_of_known_style (rt : Runtime) (c f : pystr) :
  f = str "apa" \/ f = str "mla" ->
  exists r ok,
    validate_citation (VStr c) (VStr f) = Ok r /\
    field "formatCorrect" r = Some (VBool ok) /\
    field "hasRequiredFields" r = Some (VBool ok).
Proof.
  rewrite validate_citation_str. intros [-> | ->]; simpl pystr_eqb; cbv iota.
  - now exists (verdict (found apa_items c) "Does not match APA format"),
      (found apa_items c).
  - now exists (verdict (found mla_items c) "Does not match MLA format"),
      (found mla_items c).
Qed.

Lemma required_fields_of_known_style_witness :
  exists r ok,
    validate_citation (rt := ascii_runtime)
      (VStr (str "Smith, John. A Study of Things.")) (VStr (str "mla"))
    = Ok r /\
    field "formatCorrect" r = Some (VBool ok) /\
    field "hasRequiredFields" r = Some (VBool ok).
Proof.
  apply (required_fields_of_known_style ascii_runtime). right. reflexivity.
Defined.

(** On anything but a string [re.match] raises, and so do the two rules;
    an unknown style never gets that far. *)
Example validate_citation_raises_on_a_number (rt : Runtime) :
  validate_citation (VInt 2020) (VStr (str "apa"))
  = Raise (TypeError (str "int")) /\
  validate_citation (VInt 2020) (VStr (str "chicago")) = Ok unsupported_built.
Proof. split; reflexivity. Qed.

(** [validate_citation] itself compares the style as it is written. *)
Example validate_citation_is_case_sensitive (rt : Runtime) (c : pystr) :
  validate_citation (VStr c) (VStr (str "APA")) = Ok unsupported_built.
Proof. now rewrite validate_citation_str. Qed.

(** ** The request boundary *)

Section Boundary.
Context {rt : Runtime}.

(** What the [try] block does with a payload: the two fields are read
    with their defaults, the style is put in lower case, and the citation
    is validated. *)
Lemma handle_payload (d : dict) :
  handle (VDict d)
  = (format_type <- call_lower (format_of d) ;;
     result <- validate_citation (citation_of d) format_type ;;
     Ok (VDict [ (str "statusCode", VInt 200);
                 (str "body", VStr (Json.dumps (VDict result))) ])).
Proof. reflexivity. Qed.

(** The response is decided by the citation and the style of the payload,
    defaults included. *)
Lemma handle_depends_on_fields (d d' : dict) :
  citation_of d = citation_of d' -> format_of d = format_of d' ->
  handle (VDict d) = handle (VDict d').
Proof. intros Hc Hf. now rewrite !handle_payload, Hc, Hf. Qed.

(** The style counts in lower case only. *)
Lemma handle_lowers_style (d1 d2 : dict) (f1 f2 : pystr) :
  citation_of d1 = citation_of d2 ->
  format_of d1 = VStr f1 -> format_of d2 = VStr f2 ->
  str_lower f1 = str_lower f2 ->
  handle (VDict d1) = handle (VDict d2).
Proof.
  intros Hc H1 H2 Hlow.
  rewrite !handle_payload, Hc, H1, H2. simpl call_lower. now rewrite Hlow.
Qed.



End Boundary.

(** C6.  The style is matched without regard to case: two requests with
    the same citation whose styles are the same once in lower case, such
    as "APA" and "apa", get the same response. *)
Theorem style_case_insensitive (rt : Runtime) (C : Type) (context : C)
    (d1 d2 : dict) (f1 f2 : pystr) :
  citation_of d1 = citation_of d2 ->
  format_of d1 = VStr f1 -> format_of d2 = VStr f2 ->
  str_lower f1 = str_lower f2 ->
  lambda_handler (VDict d1) context = lambda_handler (VDict d2) context.
Proof.
  intros Hc H1 H2 Hlow. unfold lambda_handler.
  now rewrite (handle_lowers_style d1 d2 f1 f2 Hc H1 H2 Hlow).
Qed.

Lemma style_case_insensitive_witness :
  str_lower (rt := ascii_runtime) (str "APA") = str "apa" /\
  lambda_handler (rt := ascii_runtime)
    (VDict [ (str "citation", VStr (str "Smith, J. (2020). A study of things."));
             (str "format", VStr (str "APA")) ]) tt
  = lambda_handler (rt := ascii_runtime)
      (VDict [ (str "citation",
                VStr (str "Smith, J. (2020). A study of things."));
               (str "format", VStr (str "apa")) ]) tt.
Proof.
  split; [reflexivity|].
  apply (style_case_insensitive ascii_runtime unit tt _ _
           (str "APA") (str "apa")); reflexivity.
Defined.

(** The pair of the specification, for every citation and every
    runtime. *)
Example apa_in_capitals (rt : Runtime) (s : pystr) :
  lambda_handler
    (VDict [(str "citation", VStr s); (str "format", VStr (str "APA"))]) tt
  = lambda_handler
      (VDict [(str "citation", VStr s); (str "format", VStr (str "apa"))]) tt.
Proof.
  unfold lambda_handler.
  rewrite (handle_lowers_style
             [(str "citation", VStr s); (str "format", VStr (str "APA"))]
             [(str "citation", VStr s); (str "format", VStr (str "apa"))]
             (str "APA") (str "apa")); reflexivity.
Qed.



(** ** The cache of compiled patterns does not show in the results *)

Section ProcessFacts.
Context {rt : Runtime}.
Variable maxcache : nat.

Lemma coherent_lookup (c : Process.cache) (pattern : pystr) re :
  Process.coherent c ->
  Process.cache_lookup pattern c = Some re ->
  Sre.sre_parse pattern = Some re.
Proof.
  induction 1 as [|[p re'] c Hp _ IH]; simpl; [discriminate|].
  destruct (pystr_eqb pattern p) eqn:E; [|exact IH].
  intros [= ->]. apply pystr_eqb_eq in E. now subst.
Qed.

Lemma coherent_tl (c : Process.cache) :
  Process.coherent c -> Process.coherent (tl c).
Proof. intros H. destruct H; [constructor | assumption]. Qed.

(** Compiling answers as the parser does, whatever the cache holds, and
    leaves the cache coherent. *)
Lemma compile_coherent (pattern : pystr) (c : Process.cache) :
  Process.coherent c ->
  fst (Process.compile maxcache pattern c)
  = match Sre.sre_parse pattern with
    | Some re => Ok re
    | None => Raise (ReError pattern)
    end /\
  Process.coherent (snd (Process.compile maxcache pattern c)).
Proof.
  intros Hc. unfold Process.compile.
  destruct (Process.cache_lookup pattern c) as [re|] eqn:Hlook.
  - now rewrite (coherent_lookup c pattern re Hc Hlook).
  - destruct (Sre.sre_parse pattern) as [re|] eqn:Hparse; simpl;
      [|now split].
    split; [reflexivity|]. apply Forall_app. split.
    + destruct (maxcache <=? length c); [now apply coherent_tl | exact Hc].
    + constructor; [exact Hparse | constructor].
Qed.

Lemma re_match_stateless (pattern : pystr) (string : value)
    (c : Process.cache) :
  Process.coherent c ->
  fst (Process.re_match maxcache pattern string c) = re_match pattern string /\
  Process.coherent (snd (Process.re_match maxcache pattern string c)).
Proof.
  intros Hc. destruct (compile_coherent pattern c Hc) as [Hfst Hsnd].
  unfold Process.re_match, Process.bindM, re_match.
  destruct (Process.compile maxcache pattern c) as [[re|e] c'];
    simpl in Hfst, Hsnd; destruct (Sre.sre_parse pattern);
    try discriminate.
  - injection Hfst as ->. now destruct string.
  - injection Hfst as ->. now split.
Qed.

Lemma validate_apa_stateless (citation : value) (c : Process.cache) :
  Process.coherent c ->
  fst (Process.validate_apa maxcache citation c) = validate_apa citation /\
  Process.coherent (snd (Process.validate_apa maxcache citation c)).
Proof.
  intros Hc. unfold Process.validate_apa, validate_apa. cbv zeta.
  destruct (re_match_stateless (str "^[^(]+\(\d{4}\)\..+") citation c Hc)
    as [Hfst Hsnd].
  unfold Process.bindM, bind.
  destruct (Process.re_match maxcache (str "^[^(]+\(\d{4}\)\..+") citation c)
    as [[m|e] c']; simpl in Hfst, Hsnd; rewrite <- Hfst; now split.
Qed.

Lemma validate_mla_stateless (citation : value) (c : Process.cache) :
  Process.coherent c ->
  fst (Process.validate_mla maxcache citation c) = validate_mla citation /\
  Process.coherent (snd (Process.validate_mla maxcache citation c)).
Proof.
  intros Hc. unfold Process.validate_mla, validate_mla. cbv zeta.
  destruct (re_match_stateless (str "^[^.]+\..+") citation c Hc)
    as [Hfst Hsnd].
  unfold Process.bindM, bind.
  destruct (Process.re_match maxcache (str "^[^.]+\..+") citation c)
    as [[m|e] c']; simpl in Hfst, Hsnd; rewrite <- Hfst; now split.
Qed.

(** From a coherent cache [validate_citation] gives what it gives with
    no cache at all. *)
Lemma validate_citation_stateless (citation format_type : value)
    (c : Process.cache) :
  Process.coherent c ->
  fst (Process.validate_citation maxcache citation format_type c)
  = validate_citation citation format_type /\
  Process.coherent
    (snd (Process.validate_citation maxcache citation format_type c)).
Proof.
  intros Hc. unfold Process.validate_citation, validate_citation.
  destruct (eq_str format_type (str "apa"));
    [now apply validate_apa_stateless|].
  destruct (eq_str format_type (str "mla"));
    [now apply validate_mla_stateless|].
  now split.
Qed.

Lemma after_coherent (k : Process.call) (c : Process.cache) :
  Process.coherent c -> Process.coherent (Process.after maxcache k c).
Proof.
  intros Hc. destruct k as [citation format_type | pattern string]; simpl.
  - now apply validate_citation_stateless.
  - now apply re_match_stateless.
Qed.

Lemma run_coherent (history : list Process.call) :
  forall c, Process.coherent c ->
            Process.coherent (Process.run maxcache history c).
Proof.
  unfold Process.run.
  induction history as [|k history IH]; intros c Hc; simpl; [exact Hc|].
  apply IH. now apply after_coherent.
Qed.

End ProcessFacts.

(** C9.  Two calls of [validate_citation] with the same citation and the
    same style give the same result (the same record, or the same
    exception), whatever the process ran before the first call and
    between the two, and however large its cache of compiled patterns is:
    the calls do change that cache, and the cache does not change what
    they return. *)
Theorem validation_repeatable (rt : Runtime) (maxcache : nat)
    (before between : list Process.call) (citation format_type : value) :
  let c1 := Process.run maxcache before [] in
  let first := Process.validate_citation maxcache citation format_type c1 in
  let c2 := Process.run maxcache between (snd first) in
  fst (Process.validate_citation maxcache citation format_type c2)
  = fst first.
Proof.
  intros c1 first c2.
  assert (H1 : Process.coherent c1)
    by (apply run_coherent; constructor).
  destruct (validate_citation_stateless maxcache citation format_type c1 H1)
    as [Hfirst Hafter].
  assert (H2 : Process.coherent c2) by now apply run_coherent.
  destruct (validate_citation_stateless maxcache citation format_type c2 H2)
    as [Hsecond _].
  unfold first. now rewrite Hsecond, Hfirst.
Qed.

(** The cache is state that could show: from a cache that holds another
    pattern's compiled form under the MLA pattern's text, which no run of
    the process produces, the same call gives another result. *)
Example incoherent_cache_shows (rt : Runtime) :
  validate_citation (VStr (str "A.b")) (VStr (str "mla"))
  = Ok (verdict true "Does not match MLA format") /\
  fst (Process.validate_citation 512 (VStr (str "A.b")) (VStr (str "mla"))
         [(str "^[^.]+\..+", apa_items)])
  = Ok (verdict false "Does not match MLA format").
Proof. split; reflexivity. Qed.

(** The first call of a fresh process puts its pattern in the cache, and
    a cache that is full gives up an entry of another pattern for it. *)
Example calls_write_the_cache (rt : Runtime) :
  Process.run 512 [Process.Validate (VStr (str "A.b")) (VStr (str "mla"))] []
  = [(str "^[^.]+\..+", mla_items)] /\
  Process.run 1 [ Process.Validate (VStr (str "A.b")) (VStr (str "mla"));
                  Process.Validate (VStr (str "A.b")) (VStr (str "apa")) ] []
  = [(str "^[^(]+\(\d{4}\)\..+", apa_items)].
Proof. split; reflexivity. Qed.

(** ** The scenarios of the specification, run *)

Example apa_scenarios (rt : Runtime) :
  validate_citation (VStr (str "Smith, J. (2020). A study of things."))
                    (VStr (str "apa"))
  = Ok (verdict true "Does not match APA format") /\
  validate_citation (VStr (str "Smith, J. 2020. A study of things."))
                    (VStr (str "apa"))
  = Ok (verdict false "Does not match APA format") /\
  validate_citation (VStr (str "(2020). A study of things."))
                    (VStr (str "apa"))
  = Ok (verdict false "Does not match APA format") /\
  validate_citation (VStr []) (VStr (str "apa"))
  = Ok (verdict false "Does not match APA format").
Proof. repeat split. Qed.

Example mla_scenarios (rt : Runtime) :
  validate_citation (VStr (str "Smith, John. A Study of Things."))
                    (VStr (str "mla"))
  = Ok (verdict true "Does not match MLA format") /\
  validate_citation (VStr (str "Smith John A Study of Things"))
                    (VStr (str "mla"))
  = Ok (verdict false "Does not match MLA format") /\
  validate_citation (VStr []) (VStr (str "mla"))
  = Ok (verdict false "Does not match MLA format").
Proof. repeat split. Qed.

(** A request in full, body included. *)
Example request_scenario (rt : Runtime) :
  lambda_handler
    (VDict [ (str "citation", VStr (str "Smith, John. A Study of Things."));
             (str "format", VStr (str "MLA")) ]) tt
  = VDict
      [ (str "statusCode", VInt 200);
        (str "body",
         VStr (str "{" ++ QUOTE :: str "formatCorrect" ++ QUOTE :: str ": true, "
               ++ QUOTE :: str "hasRequiredFields" ++ QUOTE :: str ": true, "
               ++ QUOTE :: str "issues" ++ QUOTE :: str ": []}")) ].
Proof. reflexivity. Qed.

(** A payload that is no object, or whose format is no string, is a fault
    of the boundary: status 500, with the text of what was raised. *)
Example fault_scenarios (rt : Runtime) :
  lambda_handler (VList []) tt
  = VDict
      [ (str "statusCode", VInt 500);
        (str "body",
         VStr (Json.dumps
                 (VDict [ (str "error",
                           VStr (exn_str (AttributeError (str "list")
                                                         (str "get")))) ]))) ]
  /\
  lambda_handler (VDict [(str "format", VNone)]) tt
  = VDict
      [ (str "statusCode", VInt 500);
        (str "body",
         VStr (Json.dumps
                 (VDict [ (str "error",
                           VStr (exn_str (AttributeError (str "NoneType")
                                                         (str "lower")))) ]))) ].
Proof. split; reflexivity. Qed.

(** * Further properties of the handler *)

(** ** Values that are not strings *)

Section NonStrings.
Context {rt : Runtime}.

Lemma validate_apa_non_str (v : value) :
  is_str v = false -> validate_apa v = Raise (TypeError (type_name v)).
Proof. destruct v; (discriminate || reflexivity). Qed.

Lemma validate_mla_non_str (v : value) :
  is_str v = false -> validate_mla v = Raise (TypeError (type_name v)).
Proof. destruct v; (discriminate || reflexivity). Qed.

Lemma validate_citation_known (citation format_type : value) :
  known_style format_type = true -> is_str citation = false ->
  validate_citation citation format_type
  = Raise (TypeError (type_name citation)).
Proof.
  unfold known_style, validate_citation. intros Hk Hc.
  destruct (eq_str format_type (str "apa"));
    [now apply validate_apa_non_str|].
  destruct (eq_str format_type (str "mla"));
    [now apply validate_mla_non_str | discriminate].
Qed.

Lemma validate_citation_unknown (citation format_type : value) :
  known_style format_type = false ->
  validate_citation citation format_type = Ok unsupported_built.
Proof.
  unfold known_style, validate_citation. intros Hk.
  apply orb_false_iff in Hk as [-> ->]. reflexivity.
Qed.

Lemma validate_citation_of_str (c : pystr) (format_type : value) :
  exists r, validate_citation (VStr c) format_type = Ok r.
Proof.
  destruct (known_style format_type) eqn:Hk;
    [|rewrite validate_citation_unknown; eauto].
  unfold known_style, validate_citation, eq_str in *.
  destruct format_type as [| | |f| |]; try discriminate.
  apply validate_citation_returns.
Qed.

End NonStrings.

(** X2.  On the values of a decoded JSON payload [validate_citation]
    raises exactly when the style selects a rule and the citation is not a
    string; what it raises then is the [TypeError] of [re.match] for a
    subject of the citation's type.  In every other case, a style that is
    not a string included, it returns a result. *)
Theorem validate_citation_raises_iff (rt : Runtime)
    (citation format_type : value) :
  if known_style format_type && negb (is_str citation)
  then validate_citation citation format_type
       = Raise (TypeError (type_name citation))
  else exists r, validate_citation citation format_type = Ok r.
Proof.
  destruct (known_style format_type) eqn:Hk; simpl.
  - destruct (is_str citation) eqn:Hc; simpl.
    + destruct citation; try discriminate. apply validate_citation_of_str.
    + now apply validate_citation_known.
  - rewrite validate_citation_unknown; eauto.
Qed.


(** X4.  A payload that is not an object is a fault, reported as the
    [AttributeError] of its missing [get]. *)
Theorem event_not_an_object (rt : Runtime) (C : Type) (event : value)
    (context : C) :
  is_dict event = false ->
  lambda_handler event context
  = fault_response (AttributeError (type_name event) (str "get")).
Proof. destruct event; (discriminate || reflexivity). Qed.

Lemma event_not_an_object_witness :
  lambda_handler (rt := ascii_runtime)
    (VStr (str "Smith, J. (2020). A study of things.")) tt
  = fault_response (rt := ascii_runtime)
      (AttributeError (str "str") (str "get")).
Proof.
  apply (event_not_an_object ascii_runtime unit
           (VStr (str "Smith, J. (2020). A study of things.")) tt).
  reflexivity.
Defined.

(** X5.  A format that is not a string is a fault, reported as the
    [AttributeError] of its missing [lower], whatever the citation is. *)
Theorem format_not_a_string (rt : Runtime) (C : Type) (d : dict)
    (context : C) :
  is_str (format_of d) = false ->
  lambda_handler (VDict d) context
  = fault_response (AttributeError (type_name (format_of d)) (str "lower")).
Proof.
  intros H. unfold lambda_handler. rewrite handle_payload.
  destruct (format_of d); (discriminate || reflexivity).
Qed.

Lemma format_not_a_string_witness :
  lambda_handler (rt := ascii_runtime)
    (VDict [ (str "citation", VStr (str "Smith, John. A Study of Things."));
             (str "format", VNone) ]) tt
  = fault_response (rt := ascii_runtime)
      (AttributeError (str "NoneType") (str "lower")).
Proof.
  apply (format_not_a_string ascii_runtime unit
           [ (str "citation", VStr (str "Smith, John. A Study of Things."));
             (str "format", VNone) ] tt).
  reflexivity.
Defined.

(** X6.  Under a style that selects a rule, a citation that is not a
    string is a fault, reported as the [TypeError] of [re.match]. *)
Theorem citation_not_a_string (rt : Runtime) (C : Type) (d : dict)
    (f : pystr) (context : C) :
  format_of d = VStr f ->
  known_style (VStr (str_lower f)) = true ->
  is_str (citation_of d) = false ->
  lambda_handler (VDict d) context
  = fault_response (TypeError (type_name (citation_of d))).
Proof.
  intros Hf Hk Hc. unfold lambda_handler. rewrite handle_payload, Hf.
  simpl call_lower. unfold bind at 1.
  now rewrite (validate_citation_known _ _ Hk Hc).
Qed.

Lemma citation_not_a_string_witness :
  lambda_handler (rt := ascii_runtime)
    (VDict [(str "citation", VInt 2020)]) tt
  = fault_response (rt := ascii_runtime) (TypeError (str "int")).
Proof.
  apply (citation_not_a_string ascii_runtime unit
           [(str "citation", VInt 2020)] (str "apa") tt); reflexivity.
Defined.

(** X7.  Under a style that selects no rule the citation is never looked
    at: whatever it is, a number or a list as well as a string, the
    response is the success carrying the "Unsupported format" result. *)
Theorem unknown_style_ignores_citation (rt : Runtime) (C : Type) (d : dict)
    (f : pystr) (context : C) :
  format_of d = VStr f ->
  known_style (VStr (str_lower f)) = false ->
  lambda_handler (VDict d) context
  = VDict [ (str "statusCode", VInt 200);
            (str "body", VStr (Json.dumps (VDict unsupported_built))) ].
Proof.
  intros Hf Hk. unfold lambda_handler. rewrite handle_payload, Hf.
  simpl call_lower. unfold bind at 1.
  now rewrite (validate_citation_unknown _ _ Hk).
Qed.

Lemma unknown_style_ignores_citation_witness :
  lambda_handler (rt := ascii_runtime)
    (VDict [ (str "citation", VList [VInt 1; VNone]);
             (str "format", VStr (str "Chicago")) ]) tt
  = VDict [ (str "statusCode", VInt 200);
            (str "body", VStr (Json.dumps (VDict unsupported_built))) ].
Proof.
  apply (unknown_style_ignores_citation ascii_runtime unit
           [ (str "citation", VList [VInt 1; VNone]);
             (str "format", VStr (str "Chicago")) ] (str "Chicago") tt);
    reflexivity.
Defined.

(** ** What the two rules look at *)

Section RuleFacts.
Context {rt : Runtime}.

Lemma formatCorrect_apa (s : pystr) :
  exists r,
    validate_citation (VStr s) (VStr (str "apa")) = Ok r /\
    (field "formatCorrect" r = Some (VBool true) <-> apa_accepted s) /\
    (field "formatCorrect" r = Some (VBool false) <-> ~ apa_accepted s).
Proof.
  exists (verdict (found apa_items s) "Does not match APA format").
  split; [now rewrite validate_citation_str|].
  rewrite <- found_apa.
  destruct (found apa_items s); simpl; split; split;
    (reflexivity || congruence || discriminate).
Qed.

Lemma formatCorrect_mla (s : pystr) :
  exists r,
    validate_citation (VStr s) (VStr (str "mla")) = Ok r /\
    (field "formatCorrect" r = Some (VBool true) <-> mla_accepted s) /\
    (field "formatCorrect" r = Some (VBool false) <-> ~ mla_accepted s).
Proof.
  exists (verdict (found mla_items s) "Does not match MLA format").
  split; [now rewrite validate_citation_str|].
  rewrite <- found_mla.
  destruct (found mla_items s); simpl; split; split;
    (reflexivity || congruence || discriminate).
Qed.

(** An accepted citation read at its first opening parenthesis. *)
Lemma apa_accepted_at_first_parenthesis (pre rest : pystr) :
  Forall (fun c => c <> LPAREN) pre ->
  apa_accepted (pre ++ LPAREN :: rest) <->
  pre <> [] /\
  exists year c rest',
    rest = year ++ RPAREN :: PERIOD :: c :: rest' /\
    length year = 4 /\ Forall (fun c => Sre.is_decimal c = true) year /\
    c <> LF.
Proof.
  intros Hpre. split.
  - intros (author & year & c & rest' & E & Ha & Hna & Hy & Hd & Hc).
    apply (first_occurrence_unique LPAREN) in E as [-> ->]; auto.
    split; [assumption|]. now exists year, c, rest'.
  - intros (Hne & year & c & rest' & -> & Hy & Hd & Hc).
    now exists pre, year, c, rest'.
Qed.

(** An accepted citation read at its first period. *)
Lemma mla_accepted_at_first_period (pre rest : pystr) :
  Forall (fun c => c <> PERIOD) pre ->
  mla_accepted (pre ++ PERIOD :: rest) <->
  pre <> [] /\ exists c rest', rest = c :: rest' /\ c <> LF.
Proof.
  intros Hpre. split.
  - intros (lead & c & rest' & E & Ha & Hna & Hc).
    apply (first_occurrence_unique PERIOD) in E as [-> ->]; auto.
    split; [assumption|]. now exists c, rest'.
  - intros (Hne & c & rest' & -> & Hc). now exists pre, c, rest'.
Qed.

Lemma apa_accepted_app (s t : pystr) :
  apa_accepted s -> apa_accepted (s ++ t).
Proof.
  intros (author & year & c & rest & -> & H).
  exists author, year, c, (rest ++ t). split; [|exact H].
  now rewrite <- !app_assoc.
Qed.

Lemma mla_accepted_app (s t : pystr) :
  mla_accepted s -> mla_accepted (s ++ t).
Proof.
  intros (lead & c & rest & -> & H).
  exists lead, c, (rest ++ t). split; [|exact H].
  now rewrite <- !app_assoc.
Qed.

Lemma apa_accepted_length (s : pystr) : apa_accepted s -> 9 <= length s.
Proof.
  intros (author & year & c & rest & -> & Ha & _ & Hy & _).
  apply nonempty_length in Ha.
  repeat (rewrite length_app; simpl). lia.
Qed.

Lemma mla_accepted_length (s : pystr) : mla_accepted s -> 3 <= length s.
Proof.
  intros (lead & c & rest & -> & Ha & _).
  apply nonempty_length in Ha. repeat (rewrite length_app; simpl). lia.
Qed.

Lemma apa_accepted_has_parenthesis (s : pystr) :
  apa_accepted s -> In LPAREN s.
Proof.
  intros (author & year & c & rest & -> & _).
  apply in_or_app. right. now left.
Qed.

Lemma mla_accepted_has_period (s : pystr) :
  mla_accepted s -> In PERIOD s.
Proof.
  intros (lead & c & rest & -> & _).
  apply in_or_app. right. now left.
Qed.

End RuleFacts.

(** X8.  With style [apa] the first opening parenthesis decides: a
    citation is judged correct exactly when something stands before that
    parenthesis and four digits, a closing parenthesis, a period and a
    character that is not a newline come right after it.  A year in a
    later pair of parentheses does not count. *)
Theorem apa_first_parenthesis_decides (rt : Runtime) (pre rest : pystr) :
  Forall (fun c => c <> LPAREN) pre ->
  exists r,
    validate_citation (VStr (pre ++ LPAREN :: rest)) (VStr (str "apa")) = Ok r /\
    (field "formatCorrect" r = Some (VBool true) <->
     pre <> [] /\
     exists year c rest',
       rest = year ++ RPAREN :: PERIOD :: c :: rest' /\
       length year = 4 /\ Forall (fun c => Sre.is_decimal c = true) year /\
       c <> LF).
Proof.
  intros Hpre.
  destruct (formatCorrect_apa (pre ++ LPAREN :: rest)) as (r & Hr & Hok & _).
  exists r. split; [exact Hr|].
  now rewrite Hok, (apa_accepted_at_first_parenthesis pre rest Hpre).
Qed.

Lemma apa_first_parenthesis_decides_witness :
  Forall (fun c => c <> LPAREN) (str "Smith, J. ") /\
  exists r,
    validate_citation (rt := ascii_runtime)
      (VStr (str "Smith, J. " ++ LPAREN :: str "ed.) (2020). A study."))
      (VStr (str "apa")) = Ok r /\
    (field "formatCorrect" r = Some (VBool true) <->
     str "Smith, J. " <> [] /\
     exists year c rest',
       str "ed.) (2020). A study." = year ++ RPAREN :: PERIOD :: c :: rest' /\
       length year = 4 /\
       Forall (fun c => Sre.is_decimal (rt := ascii_runtime) c = true) year /\
       c <> LF).
Proof.
  assert (H : Forall (fun c => c <> LPAREN) (str "Smith, J. "))
    by forall_concrete.
  split; [exact H|].
  exact (apa_first_parenthesis_decides ascii_runtime (str "Smith, J. ")
           (str "ed.) (2020). A study.") H).
Defined.

(** X9.  With style [mla] the first period decides: a citation is judged
    correct exactly when something stands before that period and the
    character right after it is there and is not a newline. *)
Theorem mla_first_period_decides (rt : Runtime) (pre rest : pystr) :
  Forall (fun c => c <> PERIOD) pre ->
  exists r,
    validate_citation (VStr (pre ++ PERIOD :: rest)) (VStr (str "mla")) = Ok r /\
    (field "formatCorrect" r = Some (VBool true) <->
     pre <> [] /\ exists c rest', rest = c :: rest' /\ c <> LF).
Proof.
  intros Hpre.
  destruct (formatCorrect_mla (pre ++ PERIOD :: rest)) as (r & Hr & Hok & _).
  exists r. split; [exact Hr|].
  now rewrite Hok, (mla_accepted_at_first_period pre rest Hpre).
Qed.

Lemma mla_first_period_decides_witness :
  Forall (fun c => c <> PERIOD) (str "Smith, John") /\
  exists r,
    validate_citation (rt := ascii_runtime)
      (VStr (str "Smith, John" ++ PERIOD :: str " A Study of Things."))
      (VStr (str "mla")) = Ok r /\
    (field "formatCorrect" r = Some (VBool true) <->
     str "Smith, John" <> [] /\
     exists c rest', str " A Study of Things." = c :: rest' /\ c <> LF).
Proof.
  assert (H : Forall (fun c => c <> PERIOD) (str "Smith, John"))
    by forall_concrete.
  split; [exact H|].
  exact (mla_first_period_decides ascii_runtime (str "Smith, John")
           (str " A Study of Things.") H).
Defined.

(** X10.  Text added at the end of a citation judged correct leaves it
    correct, with the same result: neither rule looks past the character
    that follows its period. *)
Theorem trailing_text_keeps_result (rt : Runtime) (c t f : pystr) (r : dict) :
  validate_citation (VStr c) (VStr f) = Ok r ->
  field "formatCorrect" r = Some (VBool true) ->
  validate_citation (VStr (c ++ t)) (VStr f) = Ok r.
Proof.
  rewrite !validate_citation_str. intros Hr Hok. injection Hr as <-.
  destruct (pystr_eqb f (str "apa")); [|destruct (pystr_eqb f (str "mla"))].
  - destruct (found apa_items c) eqn:E; [|discriminate].
    apply found_apa in E. apply (apa_accepted_app c t) in E.
    apply found_apa in E. now rewrite E.
  - destruct (found mla_items c) eqn:E; [|discriminate].
    apply found_mla in E. apply (mla_accepted_app c t) in E.
    apply found_mla in E. now rewrite E.
  - discriminate.
Qed.

Lemma trailing_text_keeps_result_witness :
  validate_citation (rt := ascii_runtime)
    (VStr (str "Smith, J. (2020). A" ++ LF :: str "(n.d.) see note"))
    (VStr (str "apa"))
  = Ok (verdict true "Does not match APA format").
Proof.
  apply (trailing_text_keeps_result ascii_runtime
           (str "Smith, J. (2020). A") (LF :: str "(n.d.) see note")
           (str "apa")); reflexivity.
Defined.

(** X11.  With style [apa] a citation of fewer than nine characters is
    judged incorrect. *)
Theorem apa_citation_too_short (rt : Runtime) (c : pystr) :
  length c < 9 ->
  validate_citation (VStr c) (VStr (str "apa"))
  = Ok (verdict false "Does not match APA format").
Proof.
  intros Hlen. rewrite validate_citation_str. simpl pystr_eqb. cbv iota.
  destruct (found apa_items c) eqn:E; [|reflexivity].
  apply found_apa, apa_accepted_length in E. lia.
Qed.

Lemma apa_citation_too_short_witness :
  validate_citation (rt := ascii_runtime) (VStr (str "A(202).x"))
                    (VStr (str "apa"))
  = Ok (verdict false "Does not match APA format").
Proof.
  apply (apa_citation_too_short ascii_runtime (str "A(202).x")).
  simpl. lia.
Defined.

(** X12.  With style [mla] a citation of fewer than three characters is
    judged incorrect. *)
Theorem mla_citation_too_short (rt : Runtime) (c : pystr) :
  length c < 3 ->
  validate_citation (VStr c) (VStr (str "mla"))
  = Ok (verdict false "Does not match MLA format").
Proof.
  intros Hlen. rewrite validate_citation_str. simpl pystr_eqb. cbv iota.
  destruct (found mla_items c) eqn:E; [|reflexivity].
  apply found_mla, mla_accepted_length in E. lia.
Qed.

Lemma mla_citation_too_short_witness :
  validate_citation (rt := ascii_runtime) (VStr (str "A.")) (VStr (str "mla"))
  = Ok (verdict false "Does not match MLA format").
Proof.
  apply (mla_citation_too_short ascii_runtime (str "A.")). simpl. lia.
Defined.

(** X13.  With style [apa] a citation with no opening parenthesis in it
    is judged incorrect. *)
Theorem apa_needs_parenthesis (rt : Runtime) (c : pystr) :
  Forall (fun x => x <> LPAREN) c ->
  validate_citation (VStr c) (VStr (str "apa"))
  = Ok (verdict false "Does not match APA format").
Proof.
  intros Hc. rewrite validate_citation_str. simpl pystr_eqb. cbv iota.
  destruct (found apa_items c) eqn:E; [|reflexivity].
  apply found_apa, apa_accepted_has_parenthesis in E.
  rewrite Forall_forall in Hc. now destruct (Hc _ E).
Qed.

Lemma apa_needs_parenthesis_witness :
  validate_citation (rt := ascii_runtime)
    (VStr (str "Smith, J. 2020. A study of things.")) (VStr (str "apa"))
  = Ok (verdict false "Does not match APA format").
Proof.
  apply (apa_needs_parenthesis ascii_runtime
           (str "Smith, J. 2020. A study of things.")).
  forall_concrete.
Defined.

(** X14.  With style [mla] a citation with no period in it is judged
    incorrect. *)
Theorem mla_needs_period (rt : Runtime) (c : pystr) :
  Forall (fun x => x <> PERIOD) c ->
  validate_citation (VStr c) (VStr (str "mla"))
  = Ok (verdict false "Does not match MLA format").
Proof.
  intros Hc. rewrite validate_citation_str. simpl pystr_eqb. cbv iota.
  destruct (found mla_items c) eqn:E; [|reflexivity].
  apply found_mla, mla_accepted_has_period in E.
  rewrite Forall_forall in Hc. now destruct (Hc _ E).
Qed.

Lemma mla_needs_period_witness :
  validate_citation (rt := ascii_runtime)
    (VStr (str "Smith John A Study of Things")) (VStr (str "mla"))
  = Ok (verdict false "Does not match MLA format").
Proof.
  apply (mla_needs_period ascii_runtime (str "Smith John A Study of Things")).
  forall_concrete.
Defined.
